(** * Momentum stock ranker: scoring, confidence, ranking and analytics

    A shallow embedding of the scoring core of the momentum ranker
    ([app/core], [app/services]).  Python floats are modelled as exact
    rationals [Q]; Python ints as [Z].  Comparisons are written with the
    boolean tests [Qle_bool] / [Qltb] in the order the source writes them,
    and Python's [min]/[max] keep their tie behaviour (first argument wins). *)

From Stdlib Require Import QArith Qminmax List String ZArith Bool Lia Lqa.
From Stdlib Require Import Sorting.Permutation Sorting.Sorted.
Import ListNotations.

Open Scope Q_scope.

(** ** Numeric helpers *)

(** Python [a < b] on floats. *)
Definition Qltb (a b : Q) : bool := negb (Qle_bool b a).

(** Python's [min(a, b)]: returns [a] unless [b < a]. *)
Definition py_min (a b : Q) : Q := if Qltb b a then b else a.

(** Python's [max(a, b)]: returns [a] unless [b > a]. *)
Definition py_max (a b : Q) : Q := if Qltb a b then b else a.

(** Python's [sum(xs)]: starts from [0] and adds left to right. *)
Definition py_sum (xs : list Q) : Q := fold_left Qplus xs 0.

(** ** Data model ([app/models/stock.py]) *)

Record StockData := mkStockData {
  symbol : string;
  description : string;
  sector : string;
  industry : string;
  price : Q;
  market_cap : Q;
  beta : Q;
  volume_1d : Q;
  volume_1w : Q;
  avg_volume_90d : Q;
  (** [Optional[date]], as a day number *)
  earnings_date : option Z;
  change_1d : Q;
  perf_1w : Q;
  perf_1m : Q;
  perf_3m : Q;
  perf_6m : Q;
  perf_ytd : Q;
  perf_1y : Q;
  volatility_1m : Q;
  high_52w : Q;
  high_all_time : Q;
  sma_50 : Q;
  sma_200 : Q;
  rel_volume : Q;
  volume_change : Q;
  indexes : string
}.

Record ScoreComponents := mkScoreComponents {
  price_momentum : Q;
  volume_momentum : Q;
  technical_strength : Q;
  breakout_score : Q;
  stability_score : Q
}.

Record RankedStock := mkRankedStock {
  data : StockData;
  components : ScoreComponents;
  total_score : Q;
  confidence : Q;
  rank : Z;
  is_top : bool;
  earnings_safe : bool
}.

(** ** Configuration ([app/config.py]) *)

Record Settings := mkSettings {
  weight_price : Q;
  weight_volume : Q;
  weight_technical : Q;
  weight_breakout : Q;
  weight_stability : Q;
  price_weight_6m : Q;
  price_weight_3m : Q;
  price_weight_1m : Q;
  price_weight_1y : Q;
  price_weight_1w : Q;
  volume_score_cap : Q;
  high_52w_breakout_threshold : Q;
  high_52w_near_threshold : Q;
  high_52w_uptrend_threshold : Q;
  rel_vol_breakout_threshold : Q;
  rel_vol_near_threshold : Q;
  mcap_mega : Q;
  mcap_large : Q;
  mcap_mid_high : Q;
  mcap_mid : Q;
  mcap_small : Q;
  beta_stable_max : Q;
  beta_moderate_max : Q;
  beta_high_max : Q;
  beta_very_high_max : Q;
  top_stocks_count : Z;
  max_file_size_mb : Z;
  earnings_exclusion_days : Z
}.

(** The defaults of [class Settings]. *)
Definition default_settings : Settings := {|
  weight_price := 0.40;
  weight_volume := 0.30;
  weight_technical := 0.10;
  weight_breakout := 0.10;
  weight_stability := 0.10;
  price_weight_6m := 0.35;
  price_weight_3m := 0.25;
  price_weight_1m := 0.20;
  price_weight_1y := 0.10;
  price_weight_1w := 0.10;
  volume_score_cap := 25.0;
  high_52w_breakout_threshold := 95.0;
  high_52w_near_threshold := 90.0;
  high_52w_uptrend_threshold := 85.0;
  rel_vol_breakout_threshold := 1.5;
  rel_vol_near_threshold := 1.2;
  mcap_mega := 100.0;
  mcap_large := 50.0;
  mcap_mid_high := 20.0;
  mcap_mid := 10.0;
  mcap_small := 2.0;
  beta_stable_max := 1.0;
  beta_moderate_max := 1.5;
  beta_high_max := 2.0;
  beta_very_high_max := 2.5;
  top_stocks_count := 20;
  max_file_size_mb := 10;
  earnings_exclusion_days := 5
|}.

(** ** Price momentum ([app/core/price_momentum.py]) *)

Definition calculate_price_momentum (settings : Settings) (stock : StockData) : Q :=
  perf_6m stock * price_weight_6m settings +
  perf_3m stock * price_weight_3m settings +
  perf_1m stock * price_weight_1m settings +
  perf_1y stock * price_weight_1y settings +
  perf_1w stock * price_weight_1w settings.

(** ** Volume momentum ([app/core/volume_momentum.py]) *)

Definition _cap_score (value cap : Q) : Q := py_min (py_max value 0) cap.

Definition _weekly_volume_ratio (stock : StockData) (cap : Q) : Q :=
  if Qle_bool (avg_volume_90d stock) 0 then 0
  else
    let weekly_daily_avg := volume_1w stock / 5 in
    let ratio := weekly_daily_avg / avg_volume_90d stock in
    if Qltb 1 ratio then _cap_score ((ratio - 1) * 10) cap else 0.

Definition _daily_volume_ratio (stock : StockData) (cap : Q) : Q :=
  if Qle_bool (avg_volume_90d stock) 0 then 0
  else
    let ratio := volume_1d stock / avg_volume_90d stock in
    if Qltb 1 ratio then _cap_score ((ratio - 1) * 10) cap else 0.

Definition _relative_volume_score (stock : StockData) (cap : Q) : Q :=
  if Qltb 1 (rel_volume stock)
  then _cap_score ((rel_volume stock - 1) * 10) cap else 0.

Definition calculate_volume_momentum (settings : Settings) (stock : StockData) : Q :=
  let cap := volume_score_cap settings in
  let weekly := _weekly_volume_ratio stock cap * 0.40 in
  let daily := _daily_volume_ratio stock cap * 0.30 in
  let rel_vol := _relative_volume_score stock cap * 0.30 in
  weekly + daily + rel_vol.

(** ** Technical strength ([app/core/technical.py]) *)

Definition _trend_score (stock : StockData) : Q :=
  let score := 0 in
  let score :=
    if Qltb 0 (sma_50 stock)
    then let sma50_ratio := price stock / sma_50 stock - 1 in
         score + py_min (sma50_ratio * 50) 25
    else score in
  let score :=
    if Qltb 0 (sma_200 stock)
    then let sma200_ratio := price stock / sma_200 stock - 1 in
         score + py_min (sma200_ratio * 25) 25
    else score in
  py_min (py_max score 0) 50.

Definition _proximity_52w (stock : StockData) : Q :=
  if Qle_bool (high_52w stock) 0 then 0
  else (price stock / high_52w stock) * 100.

Definition _volatility_adjustment (volatility : Q) : Q :=
  if Qltb volatility 3 then 15.0
  else if Qltb volatility 5 then 10.0
  else if Qltb volatility 8 then 5.0
  else 0.0.

Definition calculate_technical_strength (stock : StockData) : Q :=
  let trend := _trend_score stock * 0.40 in
  let proximity := _proximity_52w stock * 0.40 in
  let volatility_adj := _volatility_adjustment (volatility_1m stock) * 0.20 in
  trend + proximity + volatility_adj.

(** ** Breakout ([app/core/breakout.py])

    The body of [calculate_breakout_score] is split along its comments:
    the two proximities, the base-score ladder and the ATH multiplier. *)

(** "Calculate 52-week high proximity" *)
Definition breakout_proximity_52w (stock : StockData) : Q :=
  if Qle_bool (high_52w stock) 0 then 50.0
  else (price stock / high_52w stock) * 100.

(** "Calculate all-time high proximity (critical factor)" *)
Definition breakout_proximity_ath (stock : StockData) (proximity_52w : Q) : Q :=
  if Qle_bool (high_all_time stock) 0 || Qltb (high_all_time stock) (price stock)
  then proximity_52w
  else (price stock / high_all_time stock) * 100.

(** "Base score from 52-week high proximity" *)
Definition breakout_base_score (settings : Settings) (stock : StockData) (proximity_52w : Q) : Q :=
  if Qle_bool (high_52w_breakout_threshold settings) proximity_52w then
    if Qle_bool (rel_vol_breakout_threshold settings) (rel_volume stock) then 25.0 else 20.0
  else if Qle_bool (high_52w_near_threshold settings) proximity_52w then
    if Qle_bool (rel_vol_near_threshold settings) (rel_volume stock) then 18.0 else 15.0
  else if Qle_bool (high_52w_uptrend_threshold settings) proximity_52w then 12.0
  else if Qle_bool 70 proximity_52w then 8.0
  else 5.0.

(** "ATH Proximity Multiplier" *)
Definition breakout_ath_multiplier (proximity_ath : Q) : Q :=
  if Qle_bool 95 proximity_ath then 1.3
  else if Qle_bool 85 proximity_ath then 1.1
  else if Qle_bool 70 proximity_ath then 0.9
  else if Qle_bool 50 proximity_ath then 0.7
  else if Qle_bool 30 proximity_ath then 0.5
  else 0.3.

Definition calculate_breakout_score (settings : Settings) (stock : StockData) : Q :=
  let proximity_52w := breakout_proximity_52w stock in
  let proximity_ath := breakout_proximity_ath stock proximity_52w in
  let base_score := breakout_base_score settings stock proximity_52w in
  let ath_multiplier := breakout_ath_multiplier proximity_ath in
  let final_score := base_score * ath_multiplier in
  py_min final_score 30.0.

(** ** Stability ([app/core/stability.py]) *)

Definition _mcap_score (settings : Settings) (market_cap : Q) : Q :=
  let mcap_billions := market_cap / 1000000000 in
  if Qle_bool (mcap_mega settings) mcap_billions then 20.0
  else if Qle_bool (mcap_large settings) mcap_billions then 16.0
  else if Qle_bool (mcap_mid_high settings) mcap_billions then 12.0
  else if Qle_bool (mcap_mid settings) mcap_billions then 8.0
  else if Qle_bool (mcap_small settings) mcap_billions then 5.0
  else 2.0.

(** [0.5 <= beta <= settings.beta_stable_max] is a chained comparison. *)
Definition _beta_score (settings : Settings) (beta : Q) : Q :=
  if Qle_bool 0.5 beta && Qle_bool beta (beta_stable_max settings) then 15.0
  else if Qle_bool beta (beta_moderate_max settings) then 12.0
  else if Qle_bool beta (beta_high_max settings) then 8.0
  else if Qle_bool beta (beta_very_high_max settings) then 4.0
  else 0.0.

Definition calculate_stability_score (settings : Settings) (stock : StockData) : Q :=
  let mcap := _mcap_score settings (market_cap stock) * 0.60 in
  let beta := _beta_score settings (beta stock) * 0.40 in
  mcap + beta.

(** ** Score aggregation ([app/core/scoring.py]) *)

Definition calculate_components (settings : Settings) (stock : StockData) : ScoreComponents := {|
  price_momentum := calculate_price_momentum settings stock;
  volume_momentum := calculate_volume_momentum settings stock;
  technical_strength := calculate_technical_strength stock;
  breakout_score := calculate_breakout_score settings stock;
  stability_score := calculate_stability_score settings stock
|}.

Definition calculate_total_score (settings : Settings) (components : ScoreComponents) : Q :=
  price_momentum components * weight_price settings +
  volume_momentum components * weight_volume settings +
  technical_strength components * weight_technical settings +
  breakout_score components * weight_breakout settings +
  stability_score components * weight_stability settings.

(** ** Confidence ([app/services/confidence.py])

    [components = None] is [option ScoreComponents]. *)
Definition calculate_confidence (stock : StockData) (components : option ScoreComponents) : Q :=
  let score := 0.0 in
  (* Price above SMA50 *)
  let score := if Qltb 0 (sma_50 stock) && Qltb (sma_50 stock) (price stock)
               then score + 15.0 else score in
  (* Price above SMA200 *)
  let score := if Qltb 0 (sma_200 stock) && Qltb (sma_200 stock) (price stock)
               then score + 10.0 else score in
  (* Near 52-week high (>90%) *)
  let score := if Qltb 0 (high_52w stock) && Qltb 0.90 (price stock / high_52w stock)
               then score + 10.0 else score in
  (* Near All-Time High *)
  let score :=
    if Qltb 0 (high_all_time stock) && Qle_bool (price stock) (high_all_time stock) then
      let ath_proximity := price stock / high_all_time stock in
      if Qle_bool 0.95 ath_proximity then score + 20.0
      else if Qle_bool 0.85 ath_proximity then score + 15.0
      else if Qle_bool 0.70 ath_proximity then score + 10.0
      else if Qle_bool 0.50 ath_proximity then score + 5.0
      else score
    else if Qltb 0 (high_all_time stock) && Qltb (high_all_time stock) (price stock)
    then score + 20.0
    else score in
  (* Volume confirmation (rel_vol > 1.2) *)
  let score := if Qltb 1.2 (rel_volume stock) then score + 10.0 else score in
  (* All timeframes positive momentum *)
  let score := if forallb (fun b => b)
                   [Qltb 0 (perf_1w stock); Qltb 0 (perf_1m stock);
                    Qltb 0 (perf_3m stock); Qltb 0 (perf_6m stock)]
               then score + 15.0 else score in
  (* Low volatility (<5%) *)
  let score := if Qltb (volatility_1m stock) 5 then score + 5.0 else score in
  (* Momentum score contribution (if available) *)
  let score :=
    match components with
    | Some c =>
        let total_momentum := price_momentum c + volume_momentum c in
        let momentum_contribution := py_min ((total_momentum / 60) * 15) 15.0 in
        score + momentum_contribution
    | None => score
    end in
  py_min score 100.0.

(** ** Ranking ([app/services/stock_ranker.py]) *)

(** [_is_earnings_safe]; [date.today()] is the parameter [today]. *)
Definition _is_earnings_safe (today : Z) (stock : StockData) (days : Z) : bool :=
  match earnings_date stock with
  | None => true
  | Some d => (days <? Z.abs (d - today))%Z
  end.

(** [list.sort(key=..., reverse=True)]: a stable sort by decreasing key
    (Python keeps equal keys in their original order also when
    [reverse=True]).  Keys are totally ordered, so every stable sort gives
    this same list; we compute it by insertion: an element goes in front
    of the first element whose key is not larger than its own. *)
Fixpoint insert_desc {A : Type} (key : A -> Q) (x : A) (l : list A) : list A :=
  match l with
  | [] => [x]
  | y :: l' => if Qle_bool (key y) (key x) then x :: l else y :: insert_desc key x l'
  end.

Fixpoint sort_desc {A : Type} (key : A -> Q) (l : list A) : list A :=
  match l with
  | [] => []
  | x :: l' => insert_desc key x (sort_desc key l')
  end.

Definition scored_item : Type := (StockData * ScoreComponents * Q)%type.

(** The list comprehension over [enumerate(scored)]. *)
Fixpoint build_ranked (settings : Settings) (today : Z) (idx : nat)
    (scored : list scored_item) : list RankedStock :=
  match scored with
  | [] => []
  | (stock, comps, total) :: rest =>
      {| data := stock;
         components := comps;
         total_score := total;
         confidence := calculate_confidence stock (Some comps);
         rank := Z.of_nat (idx + 1);
         is_top := (Z.of_nat (idx + 1) <=? top_stocks_count settings)%Z;
         earnings_safe := _is_earnings_safe today stock (earnings_exclusion_days settings) |}
      :: build_ranked settings today (S idx) rest
  end.

(** [rank_stocks].  [None] is the [IndexError] raised by the log line
    [scored[0][2] ... scored[-1][2]] after sorting when [scored] is empty. *)
Definition rank_stocks (settings : Settings) (today : Z) (stocks : list StockData)
    : option (list RankedStock) :=
  let scored := map (fun stock =>
                       let comps := calculate_components settings stock in
                       (stock, comps, calculate_total_score settings comps)) stocks in
  let scored := sort_desc (fun x => snd x) scored in
  match scored with
  | [] => None
  | _ :: _ => Some (build_ranked settings today 0 scored)
  end.

(** ** Analytics ([app/services/analytics.py]) *)

Record IndustryStats := mkIndustryStats {
  is_name : string;
  is_sector : string;
  is_count : Z;
  is_avg_score : Q;
  is_top_stock : string
}.

Record Analytics := mkAnalytics {
  total_stocks : Z;
  avg_score : Q;
  avg_confidence : Q;
  top_20_avg_score : Q;
  earnings_safe_count : Z;
  trending_industries : list IndustryStats;
  (** a [dict[str, int]], in insertion order *)
  sector_distribution : list (string * Z);
  top_movers : list string;
  top_movers_1w : list string;
  top_movers_1m : list string;
  top_movers_6m : list string;
  volume_leaders : list string;
  breakout_candidates : list string
}.

(** [industry_stocks[industry].append(stock)] on an insertion-ordered dict. *)
Fixpoint group_append (k : string) (s : RankedStock)
    (m : list (string * list RankedStock)) : list (string * list RankedStock) :=
  match m with
  | [] => [(k, [s])]
  | (k', ss) :: m' =>
      if String.eqb k k' then (k', ss ++ [s]) :: m' else (k', ss) :: group_append k s m'
  end.

(** Python's [min(xs, key=lambda s: s.rank)] on a non-empty list: the first
    element of least rank. *)
Definition min_by_rank (x : RankedStock) (xs : list RankedStock) : RankedStock :=
  fold_left (fun best s => if (rank s <? rank best)%Z then s else best) xs x.

Definition _get_trending_industries (stocks : list RankedStock) (limit : nat)
    : list IndustryStats :=
  let industry_stocks :=
    fold_left (fun m stock => group_append (industry (data stock)) stock m) stocks [] in
  let industry_stats :=
    flat_map (fun '(name, ind_stocks) =>
      match ind_stocks with
      | [] => []
      | first :: others =>
          if (List.length ind_stocks <? 2)%nat then []
          else
            let avg := py_sum (map total_score ind_stocks) / inject_Z (Z.of_nat (List.length ind_stocks)) in
            let top := min_by_rank first others in
            [{| is_name := name; is_sector := sector (data top);
                is_count := Z.of_nat (List.length ind_stocks); is_avg_score := avg;
                is_top_stock := symbol (data top) |}]
      end) industry_stocks in
  firstn limit (sort_desc is_avg_score industry_stats).

(** [dict(Counter(s.data.sector for s in stocks))] *)
Fixpoint counter_add (k : string) (m : list (string * Z)) : list (string * Z) :=
  match m with
  | [] => [(k, 1%Z)]
  | (k', n) :: m' => if String.eqb k k' then (k', (n + 1)%Z) :: m' else (k', n) :: counter_add k m'
  end.

Definition _get_sector_distribution (stocks : list RankedStock) : list (string * Z) :=
  fold_left (fun m s => counter_add (sector (data s)) m) stocks [].

(** [[s.data.symbol for s in sorted(stocks, key=..., reverse=True)[:limit]]] *)
Definition top_symbols_by (key : RankedStock -> Q) (stocks : list RankedStock) (limit : nat)
    : list string :=
  map (fun s => symbol (data s)) (firstn limit (sort_desc key stocks)).

Definition _get_top_movers_1w (stocks : list RankedStock) (limit : nat) : list string :=
  top_symbols_by (fun s => perf_1w (data s)) stocks limit.

Definition _get_top_movers_1m (stocks : list RankedStock) (limit : nat) : list string :=
  top_symbols_by (fun s => perf_1m (data s)) stocks limit.

Definition _get_top_movers_6m (stocks : list RankedStock) (limit : nat) : list string :=
  top_symbols_by (fun s => perf_6m (data s)) stocks limit.

Definition _get_volume_leaders (stocks : list RankedStock) (limit : nat) : list string :=
  top_symbols_by (fun s => rel_volume (data s)) stocks limit.

Definition breakout_proximity (s : RankedStock) : Q :=
  if Qle_bool (high_52w (data s)) 0 then 0 else price (data s) / high_52w (data s).

Definition _get_breakout_candidates (stocks : list RankedStock) (limit : nat) : list string :=
  top_symbols_by breakout_proximity stocks limit.

Definition calculate_analytics (stocks : list RankedStock) : Analytics :=
  match stocks with
  | [] =>
      {| total_stocks := 0; avg_score := 0; avg_confidence := 0; top_20_avg_score := 0;
         earnings_safe_count := 0; trending_industries := []; sector_distribution := [];
         top_movers := []; top_movers_1w := []; top_movers_1m := []; top_movers_6m := [];
         volume_leaders := []; breakout_candidates := [] |}
  | _ :: _ =>
      let n := inject_Z (Z.of_nat (List.length stocks)) in
      let top_20 := filter is_top stocks in
      let top_movers_1w := _get_top_movers_1w stocks 5 in
      let top_movers_1m := _get_top_movers_1m stocks 5 in
      let top_movers_6m := _get_top_movers_6m stocks 5 in
      {| total_stocks := Z.of_nat (List.length stocks);
         avg_score := py_sum (map total_score stocks) / n;
         avg_confidence := py_sum (map confidence stocks) / n;
         top_20_avg_score :=
           match top_20 with
           | [] => 0
           | _ :: _ => py_sum (map total_score top_20) / inject_Z (Z.of_nat (List.length top_20))
           end;
         earnings_safe_count := Z.of_nat (List.length (filter earnings_safe stocks));
         trending_industries := _get_trending_industries stocks 5;
         sector_distribution := _get_sector_distribution stocks;
         top_movers := top_movers_1w;
         top_movers_1w := top_movers_1w;
         top_movers_1m := top_movers_1m;
         top_movers_6m := top_movers_6m;
         volume_leaders := _get_volume_leaders stocks 5;
         breakout_candidates := _get_breakout_candidates stocks 5 |}
  end.

(** ** CSV parsing ([app/services/csv_parser.py])

    Python values handed to the [StockData] constructor, and the
    exceptions the pipeline can raise. *)

Inductive PyVal :=
| PyStr (s : string)
| PyFloat (q : Q)
| PyDate (d : option Z).

Inductive PyError :=
| TypeError (missing : list string)
| IndexError
| OtherError.

(** The fields of [@dataclass class StockData] without a default, in
    declaration order; [indexes] has the default [""]. *)
Definition stockdata_required : list string :=
  ["symbol"; "description"; "sector"; "industry"; "price"; "market_cap"; "beta";
   "volume_1d"; "volume_1w"; "avg_volume_90d"; "earnings_date"; "change_1d";
   "perf_1w"; "perf_1m"; "perf_3m"; "perf_6m"; "perf_ytd"; "perf_1y";
   "volatility_1m"; "high_52w"; "high_all_time"; "sma_50"; "sma_200";
   "rel_volume"; "volume_change"]%string.

Definition stockdata_fields : list string := stockdata_required ++ ["indexes"%string].

Fixpoint kw_lookup (name : string) (kwargs : list (string * PyVal)) : option PyVal :=
  match kwargs with
  | [] => None
  | (k, v) :: rest => if String.eqb k name then Some v else kw_lookup name rest
  end.

(** Typed reads of a keyword argument.  The dataclass does not check types;
    the fallbacks are never reached with the keyword arguments
    [_row_to_stock] passes, whose types match the fields. *)
Definition kw_str (name : string) (d : string) (kwargs : list (string * PyVal)) : string :=
  match kw_lookup name kwargs with Some (PyStr s) => s | _ => d end.
Definition kw_q (name : string) (kwargs : list (string * PyVal)) : Q :=
  match kw_lookup name kwargs with Some (PyFloat q) => q | _ => 0 end.
Definition kw_date (name : string) (kwargs : list (string * PyVal)) : option Z :=
  match kw_lookup name kwargs with Some (PyDate d) => d | _ => None end.

(** The generated [StockData.__init__] called with keyword arguments only:
    an unexpected keyword raises [TypeError], then so does every missing
    required field. *)
Definition stockdata_init (kwargs : list (string * PyVal)) : PyError + StockData :=
  let given := map fst kwargs in
  match filter (fun k => negb (existsb (String.eqb k) stockdata_fields)) given with
  | _ :: _ => inl OtherError
  | [] =>
    match filter (fun f => negb (existsb (String.eqb f) given)) stockdata_required with
    | (_ :: _) as missing => inl (TypeError missing)
    | [] => inr (mkStockData
        (kw_str "symbol" "" kwargs) (kw_str "description" "" kwargs)
        (kw_str "sector" "" kwargs) (kw_str "industry" "" kwargs)
        (kw_q "price" kwargs) (kw_q "market_cap" kwargs) (kw_q "beta" kwargs)
        (kw_q "volume_1d" kwargs) (kw_q "volume_1w" kwargs) (kw_q "avg_volume_90d" kwargs)
        (kw_date "earnings_date" kwargs) (kw_q "change_1d" kwargs)
        (kw_q "perf_1w" kwargs) (kw_q "perf_1m" kwargs) (kw_q "perf_3m" kwargs)
        (kw_q "perf_6m" kwargs) (kw_q "perf_ytd" kwargs) (kw_q "perf_1y" kwargs)
        (kw_q "volatility_1m" kwargs) (kw_q "high_52w" kwargs) (kw_q "high_all_time" kwargs)
        (kw_q "sma_50" kwargs) (kw_q "sma_200" kwargs) (kw_q "rel_volume" kwargs)
        (kw_q "volume_change" kwargs) (kw_str "indexes" "" kwargs))
    end
  end.

(** [COLUMN_MAP] *)
Definition COLUMN_MAP : list (string * string) :=
  [("symbol", "Symbol"); ("description", "Description"); ("sector", "Sector");
   ("industry", "Industry"); ("price", "Price"); ("market_cap", "Market capitalization");
   ("beta", "Beta 1 year"); ("volume_1d", "Volume 1 day"); ("volume_1w", "Volume 1 week");
   ("avg_volume_90d", "Average Volume 90 days"); ("earnings_date", "Upcoming earnings date");
   ("perf_1w", "Performance % 1 week"); ("perf_1m", "Performance % 1 month");
   ("perf_3m", "Performance % 3 months"); ("perf_6m", "Performance % 6 months");
   ("perf_1y", "Performance % 1 year"); ("volatility_1m", "Volatility 1 month");
   ("high_52w", "High 52 weeks"); ("high_all_time", "High All Time");
   ("sma_50", "Simple Moving Average (50) 1 day");
   ("sma_200", "Simple Moving Average (200) 1 day");
   ("rel_volume", "Relative Volume 1 day"); ("volume_change", "Volume Change % 1 day");
   ("indexes", "Index")]%string.

(** [COLUMN_MAP[key]]; every key used below is in the map. *)
Definition column (key : string) : string :=
  match find (fun kv => String.eqb (fst kv) key) COLUMN_MAP with
  | Some (_, c) => c
  | None => ""%string
  end.

Section CsvParser.

(** A pandas cell value and the conversions [csv_parser.py] applies to it:
    [str(v)], [_safe_float(v, default)] and [_parse_date(v)].  They rest on
    pandas and [datetime] and are kept abstract; none of them raises (the
    last two catch their errors). *)
Variable Raw : Type.
Variable py_str : Raw -> string.
Variable _safe_float : option Raw -> Q -> Q.
Variable _parse_date : option Raw -> option Z.

(** A DataFrame row, [row.get(col)] looked up by column name. *)
Definition Row : Type := list (string * Raw).

Definition row_get (row : Row) (col : string) : option Raw :=
  match find (fun kv => String.eqb (fst kv) col) row with
  | Some (_, v) => Some v
  | None => None
  end.

(** [str(row.get(col, ""))] *)
Definition row_str (row : Row) (col : string) : string :=
  match row_get row col with Some v => py_str v | None => ""%string end.

(** The keyword arguments of the [StockData(...)] call in [_row_to_stock]. *)
Definition _row_to_stock_kwargs (row : Row) : list (string * PyVal) :=
  [("symbol", PyStr (row_str row (column "symbol")));
   ("description", PyStr (row_str row (column "description")));
   ("sector", PyStr (row_str row (column "sector")));
   ("industry", PyStr (row_str row (column "industry")));
   ("price", PyFloat (_safe_float (row_get row (column "price")) 0.0));
   ("market_cap", PyFloat (_safe_float (row_get row (column "market_cap")) 0.0));
   ("beta", PyFloat (_safe_float (row_get row (column "beta")) 1.0));
   ("volume_1d", PyFloat (_safe_float (row_get row (column "volume_1d")) 0.0));
   ("volume_1w", PyFloat (_safe_float (row_get row (column "volume_1w")) 0.0));
   ("avg_volume_90d", PyFloat (_safe_float (row_get row (column "avg_volume_90d")) 0.0));
   ("earnings_date", PyDate (_parse_date (row_get row (column "earnings_date"))));
   ("perf_1w", PyFloat (_safe_float (row_get row (column "perf_1w")) 0.0));
   ("perf_1m", PyFloat (_safe_float (row_get row (column "perf_1m")) 0.0));
   ("perf_3m", PyFloat (_safe_float (row_get row (column "perf_3m")) 0.0));
   ("perf_6m", PyFloat (_safe_float (row_get row (column "perf_6m")) 0.0));
   ("perf_1y", PyFloat (_safe_float (row_get row (column "perf_1y")) 0.0));
   ("volatility_1m", PyFloat (_safe_float (row_get row (column "volatility_1m")) 0.0));
   ("high_52w", PyFloat (_safe_float (row_get row (column "high_52w")) 0.0));
   ("high_all_time", PyFloat (_safe_float (row_get row (column "high_all_time")) 0.0));
   ("sma_50", PyFloat (_safe_float (row_get row (column "sma_50")) 0.0));
   ("sma_200", PyFloat (_safe_float (row_get row (column "sma_200")) 0.0));
   ("rel_volume", PyFloat (_safe_float (row_get row (column "rel_volume")) 1.0));
   ("volume_change", PyFloat (_safe_float (row_get row (column "volume_change")) 0.0));
   ("indexes", PyStr (row_str row (column "indexes")))]%string.

Definition _row_to_stock (row : Row) : PyError + StockData :=
  stockdata_init (_row_to_stock_kwargs row).

(** The [for idx, row in df.iterrows()] loop of [parse_csv_file]: a row
    that raises counts as an error, a row with an empty symbol is skipped.
    Returns the stocks and the error count. *)
Definition parse_rows (rows : list Row) : list StockData * Z :=
  fold_left (fun acc row =>
               let '(stocks, errors) := acc in
               match _row_to_stock row with
               | inl _ => (stocks, (errors + 1)%Z)
               | inr stock =>
                   if String.eqb (symbol stock) "" then (stocks, errors)
                   else (stocks ++ [stock], errors)
               end) rows ([], 0%Z).

(** [pd.read_csv(io.StringIO(content))] after decoding, abstract; it may
    raise (e.g. on bytes that are not UTF-8). *)
Variable Content : Type.
Variable content_length : Content -> Z.
Variable read_csv : Content -> PyError + list Row.

Definition parse_csv_file (content : Content) : PyError + list StockData :=
  match read_csv content with
  | inl e => inl e
  | inr rows => inr (fst (parse_rows rows))
  end.

(** ** The upload route ([app/api/routes.py], [upload_csv]) *)

Inductive UploadError :=
| FileTooLarge
| NotCsv
| ProcessingError (e : PyError).

(** [s.endswith(suffix)] *)
Definition ends_with (suffix s : string) : bool :=
  let n := String.length s in
  let m := String.length suffix in
  (m <=? n)%nat && String.eqb (substring (n - m) m s) suffix.

(** Every [UploadError] is an [HTTPException(400, ...)].  The success value
    is the ranked list and its analytics; [get_market_overview], called last,
    catches every exception of its network fetch and is not modelled. *)
Definition upload_csv (settings : Settings) (today : Z) (filename : option string)
    (content : Content) : UploadError + (list RankedStock * Analytics) :=
  let max_size := (max_file_size_mb settings * 1024 * 1024)%Z in
  if (max_size <? content_length content)%Z then inl FileTooLarge
  else
    match filename with
    | None => inl NotCsv
    | Some f =>
      if String.eqb f "" || negb (ends_with ".csv" f) then inl NotCsv
      else
        match parse_csv_file content with
        | inl e => inl (ProcessingError e)
        | inr stocks =>
            match rank_stocks settings today stocks with
            | None => inl (ProcessingError IndexError)
            | Some ranked => inr (ranked, calculate_analytics ranked)
            end
        end
    end.

End CsvParser.

(** * Properties *)

(** ** Sample records *)

(** A record with every numeric field at its default [0.0]. *)
Definition zero_stock : StockData :=
  mkStockData "Z" "" "" "" 0 0 0 0 0 0 None 0 0 0 0 0 0 0 0 0 0 0 0 0 0 "".

(** ** The stable descending sort *)

Section SortDesc.

Context {A : Type} (key : A -> Q).

Definition desc (a b : A) : Prop := key b <= key a.

Lemma insert_desc_perm (x : A) (l : list A) :
  Permutation (insert_desc key x l) (x :: l).
Proof.
  induction l as [|y l IH]; simpl; [reflexivity|].
  destruct (Qle_bool (key y) (key x)); [reflexivity|].
  rewrite IH. apply perm_swap.
Qed.

Lemma sort_desc_perm (l : list A) : Permutation (sort_desc key l) l.
Proof.
  induction l as [|x l IH]; simpl; [reflexivity|].
  rewrite insert_desc_perm. now apply perm_skip.
Qed.

Lemma insert_desc_hd (x y : A) (l : list A) :
  desc y x -> HdRel desc y l -> HdRel desc y (insert_desc key x l).
Proof.
  intros Hyx Hl. destruct l as [|z l]; simpl.
  - now constructor.
  - destruct (Qle_bool (key z) (key x)); constructor; [exact Hyx|].
    now inversion Hl.
Qed.

Lemma insert_desc_sorted (x : A) (l : list A) :
  Sorted desc l -> Sorted desc (insert_desc key x l).
Proof.
  induction l as [|y l IH]; simpl; intros Hs.
  - now repeat constructor.
  - case_eq (Qle_bool (key y) (key x)); intros Hxy.
    + constructor; [exact Hs|]. constructor. unfold desc.
      now apply Qle_bool_imp_le.
    + inversion Hs; subst. constructor; [now apply IH|].
      apply insert_desc_hd; [|assumption].
      unfold desc. apply Qlt_le_weak, Qnot_le_lt.
      intro H. apply Qle_bool_iff in H. congruence.
Qed.

Lemma sort_desc_sorted (l : list A) : Sorted desc (sort_desc key l).
Proof.
  induction l as [|x l IH]; simpl; [constructor|].
  now apply insert_desc_sorted.
Qed.

(** Elements of equal key keep their relative order. *)
Lemma insert_desc_filter (q : Q) (x : A) (l : list A) :
  let P := fun a => Qeq_bool (key a) q in
  filter P (insert_desc key x l) = filter P (x :: l).
Proof.
  intros P. induction l as [|y l IH]; simpl; [reflexivity|].
  case_eq (Qle_bool (key y) (key x)); intros Hxy; [reflexivity|].
  simpl. rewrite IH. simpl.
  case_eq (P x); case_eq (P y); intros Hy Hx; try reflexivity.
  exfalso. unfold P in Hx, Hy. apply Qeq_bool_eq in Hx, Hy.
  assert (Hle : key y <= key x) by (rewrite Hx, Hy; apply Qle_refl).
  apply Qle_bool_iff in Hle. congruence.
Qed.

Lemma sort_desc_filter (q : Q) (l : list A) :
  filter (fun a => Qeq_bool (key a) q) (sort_desc key l)
  = filter (fun a => Qeq_bool (key a) q) l.
Proof.
  induction l as [|x l IH]; simpl; [reflexivity|].
  rewrite insert_desc_filter. simpl. now rewrite IH.
Qed.

End SortDesc.

Lemma sorted_map_back {A B : Type} (f : A -> B) (R : B -> B -> Prop) (l : list A) :
  Sorted R (map f l) -> Sorted (fun a b => R (f a) (f b)) l.
Proof.
  induction l as [|x l IH]; simpl; intros Hs; [constructor|].
  inversion Hs; subst. constructor; [now apply IH|].
  destruct l as [|y l]; constructor. simpl in *. now inversion H2.
Qed.

(** ** Ranking *)

(** The total score [rank_stocks] computes for one record. *)
Definition total_of (settings : Settings) (stock : StockData) : Q :=
  calculate_total_score settings (calculate_components settings stock).

Definition ranked_proj (r : RankedStock) : scored_item :=
  (data r, components r, total_score r).

Section BuildRanked.

Context (settings : Settings) (today : Z).

Lemma build_ranked_proj (idx : nat) (l : list scored_item) :
  map ranked_proj (build_ranked settings today idx l) = l.
Proof.
  revert idx; induction l as [|[[s c] t] l IH]; intros idx; simpl; [reflexivity|].
  unfold ranked_proj at 1; simpl. now rewrite IH.
Qed.

Lemma build_ranked_rank (idx : nat) (l : list scored_item) :
  map rank (build_ranked settings today idx l) = map Z.of_nat (seq (idx + 1) (List.length l)).
Proof.
  revert idx; induction l as [|[[s c] t] l IH]; intros idx; simpl; [reflexivity|].
  rewrite IH. replace (S idx + 1)%nat with (S (idx + 1)) by lia. reflexivity.
Qed.

Lemma build_ranked_is_top (idx : nat) (l : list scored_item) (r : RankedStock) :
  In r (build_ranked settings today idx l) ->
  is_top r = (rank r <=? top_stocks_count settings)%Z.
Proof.
  revert idx; induction l as [|[[s c] t] l IH]; intros idx; simpl; [tauto|].
  intros [<-|Hin]; [reflexivity|]. now apply (IH (S idx)).
Qed.

Lemma build_ranked_top_count (idx : nat) (l : list scored_item) :
  List.length (filter is_top (build_ranked settings today idx l))
  = List.length (filter (fun i => (Z.of_nat i <=? top_stocks_count settings)%Z)
                        (seq (idx + 1) (List.length l))).
Proof.
  revert idx; induction l as [|[[s c] t] l IH]; intros idx; simpl; [reflexivity|].
  destruct (Z.of_nat (idx + 1) <=? top_stocks_count settings)%Z; simpl;
    rewrite IH; replace (S idx + 1)%nat with (S (idx + 1)) by lia; reflexivity.
Qed.

End BuildRanked.

Lemma seq_top_count (n : nat) (top : Z) :
  List.length (filter (fun i => (Z.of_nat i <=? top)%Z) (seq 1 n)) = Nat.min n (Z.to_nat top).
Proof.
  induction n as [|n IH]; [reflexivity|].
  rewrite seq_S, filter_app, length_app, IH. cbn [filter].
  replace (1 + n)%nat with (S n) by lia.
  case_eq (Z.of_nat (S n) <=? top)%Z; intros H; cbn [List.length].
  - apply Z.leb_le in H. lia.
  - apply Z.leb_gt in H. lia.
Qed.

#[local] Instance desc_total_trans : Transitive (fun a b : RankedStock => total_score b <= total_score a).
Proof. intros a b c Hab Hbc. exact (Qle_trans _ _ _ Hbc Hab). Qed.

Definition scored_of (settings : Settings) (stock : StockData) : scored_item :=
  (stock, calculate_components settings stock, total_of settings stock).

Lemma rank_stocks_unfold (settings : Settings) (today : Z) (stocks : list StockData) :
  rank_stocks settings today stocks =
  match sort_desc snd (map (scored_of settings) stocks) with
  | [] => None
  | _ :: _ => Some (build_ranked settings today 0 (sort_desc snd (map (scored_of settings) stocks)))
  end.
Proof. reflexivity. Qed.

Lemma map_data_build_ranked (settings : Settings) (today : Z) (idx : nat) (l : list scored_item) :
  map data (build_ranked settings today idx l) = map (fun x => fst (fst x)) l.
Proof.
  rewrite <- (build_ranked_proj settings today idx l) at 2.
  rewrite map_map. reflexivity.
Qed.

Lemma in_scored_of (settings : Settings) (stocks : list StockData) (x : scored_item) :
  In x (map (scored_of settings) stocks) ->
  In (fst (fst x)) stocks /\ x = scored_of settings (fst (fst x)).
Proof.
  intros Hin. apply in_map_iff in Hin as [s [<- Hs]]. now split.
Qed.

(** ** C1: the ranker's output is a dense, stable, descending ranking *)

(** C1.  For every input, [rank_stocks] (when it returns, i.e. on every
    non-empty input) gives: ranks exactly [1..N] in output order; the
    records of the input, permuted; each with its own components and total;
    totals non-increasing along the output (pairwise); records of equal total
    in their input order (stable sort); [is_top] exactly for ranks up to
    [top_stocks_count], so [min(N, top_stocks_count)] records carry it. *)
Theorem rank_stocks_sorted_dense_stable (settings : Settings) (today : Z) (stocks : list StockData) :
  match rank_stocks settings today stocks with
  | None => stocks = []
  | Some out =>
      map rank out = map Z.of_nat (seq 1 (List.length stocks)) /\
      Permutation (map data out) stocks /\
      (forall r, In r out ->
         components r = calculate_components settings (data r) /\
         total_score r = total_of settings (data r)) /\
      StronglySorted (fun a b => total_score b <= total_score a) out /\
      (forall q, filter (fun s => Qeq_bool (total_of settings s) q) (map data out)
               = filter (fun s => Qeq_bool (total_of settings s) q) stocks) /\
      (forall r, In r out -> is_top r = (rank r <=? top_stocks_count settings)%Z) /\
      List.length (filter is_top out)
        = Nat.min (List.length stocks) (Z.to_nat (top_stocks_count settings))
  end.
Proof.
  rewrite rank_stocks_unfold.
  pose proof (sort_desc_perm snd (map (scored_of settings) stocks)) as Hp.
  pose proof (sort_desc_sorted snd (map (scored_of settings) stocks)) as Hsort.
  remember (sort_desc snd (map (scored_of settings) stocks)) as sorted eqn:Hs.
  destruct sorted as [|x xs].
  { apply Permutation_nil in Hp. now apply map_eq_nil in Hp. }
  set (out := build_ranked settings today 0 (x :: xs)).
  assert (Hlen : @List.length scored_item (x :: xs) = List.length stocks).
  { transitivity (List.length (map (scored_of settings) stocks));
      [exact (Permutation_length Hp) | apply length_map]. }
  assert (Hproj : map ranked_proj out = x :: xs) by apply build_ranked_proj.
  assert (Hin : forall r, In r out -> In (ranked_proj r) (map (scored_of settings) stocks)).
  { intros r Hr. apply (Permutation_in _ Hp). rewrite <- Hproj. now apply in_map. }
  assert (Hdata : map data out = map (fun x => fst (fst x)) (x :: xs))
    by apply map_data_build_ranked.
  refine (conj _ (conj _ (conj _ (conj _ (conj _ (conj _ _)))))).
  - unfold out. rewrite build_ranked_rank. now rewrite Hlen.
  - rewrite Hdata. rewrite (Permutation_map _ Hp), map_map.
    change (fun x => fst (fst (scored_of settings x))) with (fun x : StockData => x).
    now rewrite map_id.
  - intros r Hr. destruct (in_scored_of _ _ _ (Hin r Hr)) as [_ Heq].
    unfold ranked_proj in Heq; simpl in Heq. now inversion Heq.
  - apply Sorted_StronglySorted; [exact desc_total_trans|].
    rewrite <- Hproj in Hsort. exact (sorted_map_back _ _ _ Hsort).
  - intros q. rewrite Hdata, filter_map_swap.
    rewrite (filter_ext_in _ (fun a => Qeq_bool (snd a) q)).
    + rewrite Hs, sort_desc_filter, filter_map_swap, map_map. apply map_id.
    + intros a Ha. apply (Permutation_in _ Hp) in Ha.
      apply in_scored_of in Ha as [_ ->]. reflexivity.
  - intros r Hr. exact (build_ranked_is_top settings today 0 (x :: xs) r Hr).
  - unfold out. rewrite build_ranked_top_count, Hlen. apply seq_top_count.
Qed.

(** ** C4: the ranker on an empty collection *)

(** C4.  On the empty collection [rank_stocks] does not return a result:
    the log line after the sort reads [scored[0][2]], which raises
    [IndexError] on the empty list (modelled by [None]). *)
Theorem rank_stocks_empty_raises (settings : Settings) (today : Z) :
  rank_stocks settings today [] = None.
Proof. reflexivity. Qed.

(** ** C9: analytics of the empty collection *)

(** C9.  [calculate_analytics []] is the all-zero summary with empty
    lists and an empty sector mapping; it raises nothing. *)
Theorem calculate_analytics_empty :
  calculate_analytics [] =
  {| total_stocks := 0; avg_score := 0; avg_confidence := 0; top_20_avg_score := 0;
     earnings_safe_count := 0; trending_industries := []; sector_distribution := [];
     top_movers := []; top_movers_1w := []; top_movers_1m := []; top_movers_6m := [];
     volume_leaders := []; breakout_candidates := [] |}.
Proof. reflexivity. Qed.

(** ** Python [min] *)

Lemma py_min_le_r (a b : Q) : py_min a b <= b.
Proof.
  unfold py_min, Qltb. case_eq (Qle_bool a b); intros H; simpl.
  - now apply Qle_bool_imp_le.
  - apply Qle_refl.
Qed.

Lemma py_min_glb (c a b : Q) : c <= a -> c <= b -> c <= py_min a b.
Proof. intros Ha Hb. unfold py_min. now destruct (Qltb b a). Qed.

(** ** C3: the beta ladder below 0.5 *)

(** A record with beta [0.3]. *)
Definition low_beta : Q := 0.3.

(** C3 (as stated, refuted).  A beta below [0.5] fails the first test
    [0.5 <= beta <= 1.0] but passes the second one, [beta <= 1.5]: with the
    default thresholds [_beta_score 0.3] is [12], not [0]. *)
Lemma beta_below_half_not_zero :
  ~ (forall b : Q, b < 0.5 -> _beta_score default_settings b == 0).
Proof.
  intros H. specialize (H low_beta). unfold low_beta in H.
  assert (Hlt : (0.3 : Q) < 0.5) by (apply Qnot_le_lt; intro Hle;
    apply Qle_bool_iff in Hle; discriminate).
  specialize (H Hlt). vm_compute in H. discriminate.
Qed.

(** C3 (amended).  Under the default thresholds every beta strictly below
    [0.5] scores [12], the score of the moderate tier [(1.0, 1.5]]; and a
    beta scores [0] exactly when it is above [2.5]. *)
Theorem beta_below_half_scores_twelve (b : Q) (Hb : b < 0.5) :
  _beta_score default_settings b == 12 /\
  (forall b' : Q, _beta_score default_settings b' == 0 <-> 2.5 < b').
Proof.
  split.
  - assert (H1 : Qle_bool 0.5 b = false).
    { apply not_true_iff_false. rewrite Qle_bool_iff. now apply Qlt_not_le. }
    assert (H2 : Qle_bool b 1.5 = true).
    { apply Qle_bool_iff. lra. }
    unfold _beta_score, default_settings; cbn [beta_stable_max beta_moderate_max].
    rewrite H1. cbn [andb]. rewrite H2. reflexivity.
  - intros b'. unfold _beta_score, default_settings;
      cbn [beta_stable_max beta_moderate_max beta_high_max beta_very_high_max].
    destruct (Qle_bool b' 2.5) eqn:E4.
    + apply Qle_bool_iff in E4.
      split; [|intros H; lra].
      destruct (Qle_bool 0.5 b' && Qle_bool b' 1.0); [intros H; discriminate H|].
      destruct (Qle_bool b' 1.5); [intros H; discriminate H|].
      destruct (Qle_bool b' 2.0); intros H; discriminate H.
    + assert (H4 : 2.5 < b').
      { apply Qnot_le_lt. intros H. apply Qle_bool_iff in H. congruence. }
      assert (E1 : Qle_bool b' 1.0 = false).
      { apply not_true_iff_false. rewrite Qle_bool_iff. intros H. lra. }
      assert (E2 : Qle_bool b' 1.5 = false).
      { apply not_true_iff_false. rewrite Qle_bool_iff. intros H. lra. }
      assert (E3 : Qle_bool b' 2.0 = false).
      { apply not_true_iff_false. rewrite Qle_bool_iff. intros H. lra. }
      rewrite E1, andb_false_r, E2, E3. split; [intros _; exact H4 | intros _; reflexivity].
Qed.

Lemma beta_below_half_scores_twelve_witness :
  low_beta < 0.5 /\ _beta_score default_settings low_beta == 12 /\
  (forall b' : Q, _beta_score default_settings b' == 0 <-> 2.5 < b').
Proof.
  assert (H : low_beta < 0.5) by (unfold low_beta; lra).
  split; [exact H | exact (beta_below_half_scores_twelve low_beta H)].
Defined.

(** ** Breakout bounds *)

Lemma breakout_base_cases (settings : Settings) (stock : StockData) (p : Q) :
  let b := breakout_base_score settings stock p in
  b = 25.0 \/ b = 20.0 \/ b = 18.0 \/ b = 15.0 \/ b = 12.0 \/ b = 8.0 \/ b = 5.0.
Proof.
  unfold breakout_base_score.
  repeat match goal with |- context [if ?c then _ else _] => destruct c end;
  tauto.
Qed.

Lemma breakout_multiplier_cases (p : Q) :
  let m := breakout_ath_multiplier p in
  m = 1.3 \/ m = 1.1 \/ m = 0.9 \/ m = 0.7 \/ m = 0.5 \/ m = 0.3.
Proof.
  unfold breakout_ath_multiplier.
  repeat match goal with |- context [if ?c then _ else _] => destruct c end;
  tauto.
Qed.

(** Every base score of the ladder times every multiplier is at least
    [5.0 * 0.3]. *)
Lemma breakout_product_lower (settings : Settings) (stock : StockData) (p pa : Q) :
  1.5 <= breakout_base_score settings stock p * breakout_ath_multiplier pa.
Proof.
  destruct (breakout_base_cases settings stock p) as [Hb|[Hb|[Hb|[Hb|[Hb|[Hb|Hb]]]]]];
  destruct (breakout_multiplier_cases pa) as [Hm|[Hm|[Hm|[Hm|[Hm|Hm]]]]];
  rewrite Hb, Hm; apply Qle_bool_imp_le; reflexivity.
Qed.

Lemma breakout_score_lower (settings : Settings) (stock : StockData) :
  1.5 <= calculate_breakout_score settings stock.
Proof.
  unfold calculate_breakout_score. apply py_min_glb.
  - apply breakout_product_lower.
  - lra.
Qed.

(** C6.  For every record (and every configuration) the breakout score
    lies in [[0, 30]]. *)
Theorem breakout_score_range (settings : Settings) (stock : StockData) :
  0 <= calculate_breakout_score settings stock /\ calculate_breakout_score settings stock <= 30.
Proof.
  split.
  - apply Qle_trans with 1.5; [lra | apply breakout_score_lower].
  - eapply Qle_trans; [apply py_min_le_r | lra].
Qed.

(** C10.  For every record (and every configuration) the breakout score is
    at least [5.0 * 0.3 = 1.5], hence strictly positive. *)
Theorem breakout_score_at_least_1_5 (settings : Settings) (stock : StockData) :
  1.5 <= calculate_breakout_score settings stock /\ 0 < calculate_breakout_score settings stock.
Proof.
  pose proof (breakout_score_lower settings stock). split; [assumption | lra].
Qed.

(** ** C5: the third tier of the base-score ladder *)

(** A record trading at 82% of its 52-week high, no ATH data. *)
Definition stock_at_82pct : StockData :=
  mkStockData "B" "" "" "" 82 0 0 0 0 0 None 0 0 0 0 0 0 0 0 100 0 0 0 0 0 "".

(** C5.  With the default [high_52w_uptrend_threshold = 85.0] a record at
    82% of its 52-week high gets base score [8], not the [12] of the tier the
    source comments as [>= 80%]; its breakout score is [8 * 0.9 = 7.2]. *)
Theorem breakout_base_at_82pct :
  breakout_proximity_52w stock_at_82pct == 82 /\
  breakout_base_score default_settings stock_at_82pct (breakout_proximity_52w stock_at_82pct) == 8 /\
  calculate_breakout_score default_settings stock_at_82pct == 7.2.
Proof. vm_compute. repeat split; reflexivity. Qed.

(** ** C7: guarded volume ratios *)

(** C7.  When [avg_volume_90d <= 0] the weekly and daily volume ratio
    sub-scores are [0] (no division happens). *)
Theorem volume_ratios_zero_without_average (stock : StockData) (cap : Q)
    (Havg : avg_volume_90d stock <= 0) :
  _weekly_volume_ratio stock cap = 0 /\ _daily_volume_ratio stock cap = 0.
Proof.
  apply Qle_bool_iff in Havg.
  unfold _weekly_volume_ratio, _daily_volume_ratio. now rewrite Havg.
Qed.

Lemma volume_ratios_zero_without_average_witness :
  avg_volume_90d zero_stock <= 0 /\
  _weekly_volume_ratio zero_stock 25 = 0 /\ _daily_volume_ratio zero_stock 25 = 0.
Proof.
  assert (H : avg_volume_90d zero_stock <= 0) by (simpl; lra).
  split; [exact H | exact (volume_ratios_zero_without_average zero_stock 25 H)].
Defined.

(** ** C8: price momentum in the 6-month performance *)

(** [zero_stock] with its 6-month performance set to [v]. *)
Definition stock_with_perf_6m (v : Q) : StockData :=
  mkStockData "P" "" "" "" 0 0 0 0 0 0 None 0 0 0 0 v 0 0 0 0 0 0 0 0 0 "".

(** C8.  With [price_weight_6m = 0.35] and the other four performances at
    [0] in both records, raising [perf_6m] by [delta] raises the price
    momentum by exactly [0.35 * delta]. *)
Theorem price_momentum_6m_increment (settings : Settings) (s s' : StockData) (delta : Q)
    (Hw : price_weight_6m settings == 0.35)
    (H1w : perf_1w s == 0) (H1m : perf_1m s == 0) (H3m : perf_3m s == 0) (H1y : perf_1y s == 0)
    (H1w' : perf_1w s' == 0) (H1m' : perf_1m s' == 0) (H3m' : perf_3m s' == 0) (H1y' : perf_1y s' == 0)
    (H6m : perf_6m s' == perf_6m s + delta) :
  calculate_price_momentum settings s' == calculate_price_momentum settings s + 0.35 * delta.
Proof.
  unfold calculate_price_momentum.
  rewrite Hw, H1w, H1m, H3m, H1y, H1w', H1m', H3m', H1y', H6m.
  ring.
Qed.

Lemma price_momentum_6m_increment_witness :
  calculate_price_momentum default_settings (stock_with_perf_6m 30)
  == calculate_price_momentum default_settings (stock_with_perf_6m 20) + 0.35 * 10.
Proof.
  apply (price_momentum_6m_increment default_settings (stock_with_perf_6m 20)
           (stock_with_perf_6m 30) 10); vm_compute; reflexivity.
Defined.

(** ** C2: range of the confidence score *)

(** A record whose performances are all [-50], with [1-month volatility = 10]. *)
Definition falling_stock : StockData :=
  mkStockData "F" "" "" "" 0 0 0 0 0 0 None 0 (-50) (-50) (-50) (-50) 0 (-50) 10 0 0 0 0 0 0 "".

(** C2 (as stated, refuted).  The momentum contribution
    [min((price_momentum + volume_momentum) / 60 * 15, 15)] is negative when
    the price momentum is: for [falling_stock] with its own components (as
    [rank_stocks] passes them) the confidence is [-12.5]. *)
Lemma confidence_can_be_negative :
  ~ (forall (stock : StockData) (c : option ScoreComponents),
       0 <= calculate_confidence stock c /\ calculate_confidence stock c <= 100).
Proof.
  intros H.
  destruct (H falling_stock (Some (calculate_components default_settings falling_stock))) as [H0 _].
  apply Qle_bool_iff in H0. vm_compute in H0. discriminate.
Qed.

Lemma momentum_contribution_nonneg (t : Q) : 0 <= t -> 0 <= py_min ((t / 60) * 15) 15.0.
Proof.
  intros Ht. apply py_min_glb; [|lra].
  unfold Qdiv. apply Qmult_le_0_compat; [|lra].
  apply Qmult_le_0_compat; [exact Ht|]. apply Qinv_le_0_compat. lra.
Qed.

(** C2 (amended).  The confidence never exceeds [100]; it is at least [0]
    when no components are given or when their [price_momentum +
    volume_momentum] is non-negative. *)
Theorem calculate_confidence_bounds (stock : StockData) (c : option ScoreComponents) :
  calculate_confidence stock c <= 100 /\
  (match c with
   | None => True
   | Some k => 0 <= price_momentum k + volume_momentum k
   end -> 0 <= calculate_confidence stock c).
Proof.
  split.
  - eapply Qle_trans; [apply py_min_le_r | lra].
  - intros Hk. unfold calculate_confidence. apply py_min_glb; [|lra].
    destruct c as [k|].
    + pose proof (momentum_contribution_nonneg _ Hk) as Hm.
      set (m := py_min _ 15.0) in *. cbv zeta.
      repeat match goal with |- context [if ?b then _ else _] => destruct b end;
      lra.
    + cbv zeta.
      repeat match goal with |- context [if ?b then _ else _] => destruct b end;
      lra.
Qed.

(** * Further properties of the code *)

(** ** CSV parsing and upload *)

Section CsvProperties.

Variable Raw : Type.
Variable py_str : Raw -> string.
Variable _safe_float : option Raw -> Q -> Q.
Variable _parse_date : option Raw -> option Z.

(** [_row_to_stock] never passes [change_1d] nor [perf_ytd], two fields of
    [StockData] without a default: every row raises
    [TypeError] naming both. *)
Theorem row_to_stock_always_type_error (row : Row Raw) :
  _row_to_stock Raw py_str _safe_float _parse_date row
  = inl (TypeError ["change_1d"; "perf_ytd"]%string).
Proof. reflexivity. Qed.

(** Hence the row loop of [parse_csv_file] keeps no stock and counts every
    row as a parsing error. *)
Theorem parse_rows_always_empty (rows : list (Row Raw)) :
  parse_rows Raw py_str _safe_float _parse_date rows = ([], Z.of_nat (List.length rows)).
Proof.
  unfold parse_rows.
  assert (Hgen : forall (acc : Z) (rows : list (Row Raw)),
    fold_left (fun acc row =>
       let '(stocks, errors) := acc in
       match _row_to_stock Raw py_str _safe_float _parse_date row with
       | inl _ => (stocks, (errors + 1)%Z)
       | inr stock => if String.eqb (symbol stock) "" then (stocks, errors)
                      else (stocks ++ [stock], errors)
       end) rows ([], acc) = ([], (acc + Z.of_nat (List.length rows))%Z)).
  { intros acc rs. revert acc. induction rs as [|r rs IH]; intros acc; cbn [fold_left].
    - now rewrite Z.add_0_r.
    - rewrite row_to_stock_always_type_error, IH. cbn [List.length].
      f_equal. lia. }
  apply Hgen.
Qed.

Variable Content : Type.
Variable content_length : Content -> Z.
Variable read_csv : Content -> PyError + list (Row Raw).

(** No upload succeeds: whatever the file, [upload_csv] ends in an
    [HTTPException(400)].  A file that passes the size and name checks and
    that pandas reads gives no stocks, and [rank_stocks([])] raises
    [IndexError], which the route turns into "Error processing CSV". *)
Theorem upload_csv_never_succeeds (settings : Settings) (today : Z)
    (filename : option string) (content : Content) :
  exists err, upload_csv Raw py_str _safe_float _parse_date Content content_length read_csv
                settings today filename content = inl err.
Proof.
  unfold upload_csv.
  destruct (_ <? _)%Z; [eauto|].
  destruct filename as [f|]; [|eauto].
  destruct (_ || _); [eauto|].
  unfold parse_csv_file. destruct (read_csv content) as [e|rows]; [eauto|].
  rewrite (parse_rows_always_empty rows). cbn [fst].
  eexists. reflexivity.
Qed.

End CsvProperties.

(** ** Boolean comparisons as propositions *)

Lemma Qltb_true (a b : Q) : Qltb a b = true -> a < b.
Proof.
  unfold Qltb. rewrite negb_true_iff. intros H.
  apply Qnot_le_lt. intros H'. apply Qle_bool_iff in H'. congruence.
Qed.

Lemma Qltb_false (a b : Q) : Qltb a b = false -> b <= a.
Proof. unfold Qltb. rewrite negb_false_iff. apply Qle_bool_imp_le. Qed.

Lemma Qle_bool_false (a b : Q) : Qle_bool a b = false -> b < a.
Proof.
  intros H. apply Qnot_le_lt. intros H'. apply Qle_bool_iff in H'. congruence.
Qed.

(** Case on every [if] of the goal and turn the tests into hypotheses. *)
Ltac split_ifs :=
  repeat match goal with
  | |- context [if ?b then _ else _] => let E := fresh "E" in destruct b eqn:E
  end.

Ltac qbool_facts :=
  repeat match goal with
  | H : _ && _ = true |- _ => apply andb_true_iff in H as [? ?]
  | H : _ && _ = false |- _ => apply andb_false_iff in H as [?|?]
  | H : _ || _ = true |- _ => apply orb_true_iff in H as [?|?]
  | H : _ || _ = false |- _ => apply orb_false_iff in H as [? ?]
  | H : Qltb _ _ = true |- _ => apply Qltb_true in H
  | H : Qltb _ _ = false |- _ => apply Qltb_false in H
  | H : Qle_bool _ _ = true |- _ => apply Qle_bool_imp_le in H
  | H : Qle_bool _ _ = false |- _ => apply Qle_bool_false in H
  end.

Lemma py_max_ge_r (a b : Q) : b <= py_max a b.
Proof.
  unfold py_max. destruct (Qltb a b) eqn:E; [apply Qle_refl|].
  now apply Qltb_false in E.
Qed.

Lemma cap_score_range (v cap : Q) : 0 <= cap -> 0 <= _cap_score v cap /\ _cap_score v cap <= cap.
Proof.
  intros Hc. unfold _cap_score. split.
  - apply py_min_glb; [apply py_max_ge_r | exact Hc].
  - apply py_min_le_r.
Qed.

(** ** Volume momentum *)

Lemma volume_subscores_range (stock : StockData) (cap : Q) (Hc : 0 <= cap) :
  (0 <= _weekly_volume_ratio stock cap <= cap) /\
  (0 <= _daily_volume_ratio stock cap <= cap) /\
  (0 <= _relative_volume_score stock cap <= cap).
Proof.
  unfold _weekly_volume_ratio, _daily_volume_ratio, _relative_volume_score.
  split; [|split]; split_ifs;
    first [ split; [apply Qle_refl | exact Hc]
          | apply cap_score_range; exact Hc ].
Qed.

(** The volume momentum, [0.40 * weekly + 0.30 * daily + 0.30 * relative],
    stays within [[0, volume_score_cap]] whenever the cap is non-negative. *)
Theorem volume_momentum_range (settings : Settings) (stock : StockData)
    (Hc : 0 <= volume_score_cap settings) :
  0 <= calculate_volume_momentum settings stock <= volume_score_cap settings.
Proof.
  destruct (volume_subscores_range stock _ Hc) as [[Hw1 Hw2] [[Hd1 Hd2] [Hr1 Hr2]]].
  unfold calculate_volume_momentum. split; lra.
Qed.

Lemma volume_momentum_range_witness :
  0 <= volume_score_cap default_settings /\
  0 <= calculate_volume_momentum default_settings zero_stock <= volume_score_cap default_settings.
Proof.
  assert (H : 0 <= volume_score_cap default_settings) by (simpl; lra).
  split; [exact H | exact (volume_momentum_range default_settings zero_stock H)].
Defined.

(** ** Technical strength *)

Lemma trend_score_range (stock : StockData) : 0 <= _trend_score stock <= 50.
Proof.
  unfold _trend_score. split.
  - apply py_min_glb; [apply py_max_ge_r | lra].
  - apply py_min_le_r.
Qed.

Lemma volatility_adjustment_range (v : Q) : 0 <= _volatility_adjustment v <= 15.
Proof. unfold _volatility_adjustment. split_ifs; lra. Qed.

Lemma proximity_52w_nonneg (stock : StockData) :
  0 <= price stock -> 0 <= _proximity_52w stock.
Proof.
  intros Hp. unfold _proximity_52w. split_ifs; qbool_facts; [lra|].
  apply Qmult_le_0_compat; [|lra].
  unfold Qdiv. apply Qmult_le_0_compat; [exact Hp|].
  apply Qinv_le_0_compat. lra.
Qed.

Lemma proximity_52w_le_100 (stock : StockData) :
  price stock <= high_52w stock -> _proximity_52w stock <= 100.
Proof.
  intros Hp. unfold _proximity_52w. split_ifs; qbool_facts; [lra|].
  assert (H1 : price stock / high_52w stock <= 1).
  { apply Qle_shift_div_r; [exact E | lra]. }
  lra.
Qed.

(** The technical strength is non-negative for a non-negative price, and at
    most [0.40 * 50 + 0.40 * 100 + 0.20 * 15 = 63] when the price does not
    exceed the 52-week high (above it, the proximity term is not capped). *)
Theorem technical_strength_range (stock : StockData) (Hp : 0 <= price stock) :
  0 <= calculate_technical_strength stock /\
  (price stock <= high_52w stock -> calculate_technical_strength stock <= 63).
Proof.
  pose proof (trend_score_range stock) as [Ht1 Ht2].
  pose proof (volatility_adjustment_range (volatility_1m stock)) as [Hv1 Hv2].
  pose proof (proximity_52w_nonneg stock Hp) as Hx.
  unfold calculate_technical_strength. split; [lra|].
  intros Hh. pose proof (proximity_52w_le_100 stock Hh). lra.
Qed.

Lemma technical_strength_range_witness :
  0 <= price zero_stock /\
  0 <= calculate_technical_strength zero_stock /\
  (price zero_stock <= high_52w zero_stock -> calculate_technical_strength zero_stock <= 63).
Proof.
  assert (H : 0 <= price zero_stock) by (simpl; lra).
  split; [exact H | exact (technical_strength_range zero_stock H)].
Defined.

(** The volatility adjustment never rewards a higher volatility: it is
    non-increasing in [volatility_1m]. *)
Theorem volatility_adjustment_antitone (v1 v2 : Q) (Hv : v1 <= v2) :
  _volatility_adjustment v2 <= _volatility_adjustment v1.
Proof.
  unfold _volatility_adjustment. split_ifs; qbool_facts; lra.
Qed.

Lemma volatility_adjustment_antitone_witness :
  (4 : Q) <= 6 /\ _volatility_adjustment 6 <= _volatility_adjustment 4.
Proof.
  assert (H : (4 : Q) <= 6) by lra.
  split; [exact H | exact (volatility_adjustment_antitone 4 6 H)].
Defined.

(** ** Stability *)

Lemma mcap_score_range (settings : Settings) (m : Q) :
  2 <= _mcap_score settings m <= 20.
Proof. unfold _mcap_score. split_ifs; lra. Qed.

Lemma beta_score_range (settings : Settings) (b : Q) :
  0 <= _beta_score settings b <= 15.
Proof. unfold _beta_score. split_ifs; lra. Qed.

(** Whatever the configuration, the stability score
    [0.60 * mcap tier + 0.40 * beta tier] lies in [[1.2, 18]]. *)
Theorem stability_score_range (settings : Settings) (stock : StockData) :
  1.2 <= calculate_stability_score settings stock <= 18.
Proof.
  pose proof (mcap_score_range settings (market_cap stock)).
  pose proof (beta_score_range settings (beta stock)).
  unfold calculate_stability_score. split; lra.
Qed.

(** With tier boundaries in increasing order (as the defaults are), a larger
    market capitalisation never gets a lower market-cap tier score. *)
Theorem mcap_score_monotone (settings : Settings) (m1 m2 : Q)
    (Ht : mcap_small settings <= mcap_mid settings /\ mcap_mid settings <= mcap_mid_high settings /\
          mcap_mid_high settings <= mcap_large settings /\ mcap_large settings <= mcap_mega settings)
    (Hm : m1 <= m2) :
  _mcap_score settings m1 <= _mcap_score settings m2.
Proof.
  assert (Hb : m1 / 1000000000 <= m2 / 1000000000).
  { unfold Qdiv. apply Qmult_le_compat_r; [exact Hm|].
    apply Qle_bool_imp_le. reflexivity. }
  unfold _mcap_score. cbv zeta.
  set (b1 := m1 / 1000000000) in *. set (b2 := m2 / 1000000000) in *.
  destruct Ht as [H1 [H2 [H3 H4]]].
  split_ifs; qbool_facts; lra.
Qed.

Lemma mcap_score_monotone_witness :
  (mcap_small default_settings <= mcap_mid default_settings /\
   mcap_mid default_settings <= mcap_mid_high default_settings /\
   mcap_mid_high default_settings <= mcap_large default_settings /\
   mcap_large default_settings <= mcap_mega default_settings) /\
  (15000000000 : Q) <= 60000000000 /\
  _mcap_score default_settings 15000000000 <= _mcap_score default_settings 60000000000.
Proof.
  assert (Ht : mcap_small default_settings <= mcap_mid default_settings /\
               mcap_mid default_settings <= mcap_mid_high default_settings /\
               mcap_mid_high default_settings <= mcap_large default_settings /\
               mcap_large default_settings <= mcap_mega default_settings)
    by (simpl; repeat split; lra).
  assert (Hm : (15000000000 : Q) <= 60000000000) by lra.
  split; [exact Ht | split; [exact Hm | exact (mcap_score_monotone default_settings _ _ Ht Hm)]].
Defined.

(** ** Confidence *)

Lemma py_min_le_l (a b : Q) : py_min a b <= a.
Proof.
  unfold py_min. destruct (Qltb b a) eqn:E; [|apply Qle_refl].
  apply Qltb_true in E. lra.
Qed.

(** Without score components the confidence is the sum of the signal
    points, between [0] and [15 + 10 + 10 + 20 + 10 + 15 + 5 = 85]. *)
Theorem confidence_without_components_range (stock : StockData) :
  0 <= calculate_confidence stock None <= 85.
Proof.
  unfold calculate_confidence. cbv zeta. split.
  - apply py_min_glb; [|lra].
    split_ifs; lra.
  - eapply Qle_trans; [apply py_min_le_l|].
    split_ifs; lra.
Qed.

(** ** Ranking *)

Lemma insert_desc_in_front {A : Type} (key : A -> Q) (x : A) (l : list A) :
  HdRel (desc key) x l -> insert_desc key x l = x :: l.
Proof.
  intros H. destruct l as [|y l]; simpl; [reflexivity|].
  inversion H as [|? ? Hyx]; subst. unfold desc in Hyx.
  apply Qle_bool_iff in Hyx. now rewrite Hyx.
Qed.

Lemma sort_desc_already_sorted {A : Type} (key : A -> Q) (l : list A) :
  Sorted (desc key) l -> sort_desc key l = l.
Proof.
  induction l as [|x l IH]; simpl; intros Hs; [reflexivity|].
  inversion Hs; subst. rewrite IH by assumption.
  now apply insert_desc_in_front.
Qed.

(** Ranking the records of a ranked list again (same configuration and
    day) gives back the same ranked list: same order, ranks, scores and
    flags. *)
Theorem rank_stocks_idempotent (settings : Settings) (today : Z) (stocks : list StockData) :
  match rank_stocks settings today stocks with
  | None => True
  | Some out => rank_stocks settings today (map data out) = Some out
  end.
Proof.
  rewrite rank_stocks_unfold.
  pose proof (sort_desc_perm snd (map (scored_of settings) stocks)) as Hp.
  pose proof (sort_desc_sorted snd (map (scored_of settings) stocks)) as Hsort.
  remember (sort_desc snd (map (scored_of settings) stocks)) as sorted eqn:Hs.
  destruct sorted as [|x xs]; [exact I|].
  rewrite map_data_build_ranked, rank_stocks_unfold, map_map.
  assert (Hback : map (fun a => scored_of settings (fst (fst a))) (x :: xs) = x :: xs).
  { rewrite <- map_id. apply map_ext_in. intros a Ha.
    apply (Permutation_in _ Hp) in Ha. apply in_scored_of in Ha as [_ Ha].
    now rewrite <- Ha. }
  rewrite Hback, (sort_desc_already_sorted _ _ Hsort). reflexivity.
Qed.

(** ** Analytics *)

Lemma StronglySorted_app_split {A : Type} (R : A -> A -> Prop) (l1 l2 : list A) :
  StronglySorted R (l1 ++ l2) ->
  StronglySorted R l1 /\ (forall a b, In a l1 -> In b l2 -> R a b).
Proof.
  induction l1 as [|x l1 IH]; simpl; intros Hs.
  - split; [constructor | tauto].
  - inversion Hs as [|? ? Hs' Hall]; subst.
    destruct (IH Hs') as [H1 H2]. apply Forall_app in Hall as [Hx1 Hx2].
    split; [now constructor|].
    intros a b [<-|Ha] Hb; [|now apply H2].
    rewrite Forall_forall in Hx2. now apply Hx2.
Qed.

#[local] Instance desc_trans {A : Type} (key : A -> Q) : Transitive (desc key).
Proof. intros a b c Hab Hbc. unfold desc in *. exact (Qle_trans _ _ _ Hbc Hab). Qed.

Lemma sort_desc_prefix {A : Type} (key : A -> Q) (l : list A) (n : nat) :
  Permutation (firstn n (sort_desc key l) ++ skipn n (sort_desc key l)) l /\
  StronglySorted (desc key) (firstn n (sort_desc key l)) /\
  (forall a b, In a (firstn n (sort_desc key l)) -> In b (skipn n (sort_desc key l)) ->
     key b <= key a).
Proof.
  rewrite firstn_skipn. split; [apply sort_desc_perm|].
  apply StronglySorted_app_split. rewrite firstn_skipn.
  apply Sorted_StronglySorted; [apply desc_trans | apply sort_desc_sorted].
Qed.

(** The top-[limit] lists of the analytics ([_get_top_movers_1w/1m/6m],
    [_get_volume_leaders], [_get_breakout_candidates]) are the symbols of
    [min(limit, N)] records taken from the input, in non-increasing key
    order, and no record left out has a larger key than a record listed. *)
Theorem top_symbols_by_spec (key : RankedStock -> Q) (stocks : list RankedStock) (limit : nat) :
  exists sel rest,
    Permutation (sel ++ rest) stocks /\
    top_symbols_by key stocks limit = map (fun s => symbol (data s)) sel /\
    List.length sel = Nat.min limit (List.length stocks) /\
    StronglySorted (fun a b => key b <= key a) sel /\
    (forall a b, In a sel -> In b rest -> key b <= key a).
Proof.
  destruct (sort_desc_prefix key stocks limit) as [Hp [Hs Hx]].
  exists (firstn limit (sort_desc key stocks)), (skipn limit (sort_desc key stocks)).
  split; [exact Hp|]. split; [reflexivity|]. split; [|split; [exact Hs | exact Hx]].
  rewrite length_firstn. f_equal. apply Permutation_length, sort_desc_perm.
Qed.

Lemma top_symbols_by_length (key : RankedStock -> Q) (stocks : list RankedStock) (limit : nat) :
  List.length (top_symbols_by key stocks limit) = Nat.min limit (List.length stocks).
Proof.
  unfold top_symbols_by. rewrite length_map, length_firstn. f_equal.
  apply Permutation_length, sort_desc_perm.
Qed.

Lemma trending_industries_length (stocks : list RankedStock) (limit : nat) :
  (List.length (_get_trending_industries stocks limit) <= limit)%nat.
Proof. unfold _get_trending_industries. apply firstn_le_length. Qed.

(** For every ranked collection (empty or not): [total_stocks] is its
    size, each of the five top-5 symbol lists has [min(5, N)] entries,
    [top_movers] is [top_movers_1w], at most 5 trending industries are
    listed, and [earnings_safe_count] is between [0] and [total_stocks]. *)
Theorem analytics_sizes (stocks : list RankedStock) :
  let a := calculate_analytics stocks in
  total_stocks a = Z.of_nat (List.length stocks) /\
  List.length (top_movers_1w a) = Nat.min 5 (List.length stocks) /\
  List.length (top_movers_1m a) = Nat.min 5 (List.length stocks) /\
  List.length (top_movers_6m a) = Nat.min 5 (List.length stocks) /\
  List.length (volume_leaders a) = Nat.min 5 (List.length stocks) /\
  List.length (breakout_candidates a) = Nat.min 5 (List.length stocks) /\
  top_movers a = top_movers_1w a /\
  (List.length (trending_industries a) <= 5)%nat /\
  (0 <= earnings_safe_count a <= total_stocks a)%Z.
Proof.
  destruct stocks as [|s ss]; simpl.
  - repeat split; lia.
  - unfold _get_top_movers_1w, _get_top_movers_1m, _get_top_movers_6m,
      _get_volume_leaders, _get_breakout_candidates.
    rewrite !top_symbols_by_length. cbn [List.length].
    split; [reflexivity|]. do 6 (split; [reflexivity|]).
    split; [apply trending_industries_length|].
    pose proof (filter_length_le earnings_safe ss) as Hf.
    destruct (earnings_safe s); cbn [List.length]; lia.
Qed.

(** [d.get(k, 0)] on a [dict[str, int]] kept as an insertion-ordered list. *)
Definition counter_get (k : string) (m : list (string * Z)) : Z :=
  match find (fun kv => String.eqb (fst kv) k) m with
  | Some (_, n) => n
  | None => 0%Z
  end.

Lemma counter_add_get (k k' : string) (m : list (string * Z)) :
  counter_get k (counter_add k' m) = (counter_get k m + if String.eqb k' k then 1 else 0)%Z.
Proof.
  unfold counter_get. induction m as [|[k'' n] m IH]; simpl.
  - destruct (String.eqb k' k); reflexivity.
  - destruct (String.eqb k' k'') eqn:E1; simpl.
    + apply String.eqb_eq in E1; subst k''.
      destruct (String.eqb k' k); lia.
    + destruct (String.eqb k'' k) eqn:E2.
      * apply String.eqb_eq in E2; subst k''. rewrite E1. lia.
      * exact IH.
Qed.

Lemma counter_add_keys (k k' : string) (m : list (string * Z)) :
  In k' (map fst (counter_add k m)) -> k' = k \/ In k' (map fst m).
Proof.
  induction m as [|[k'' n] m IH]; simpl.
  - intros [<-|[]]. now left.
  - destruct (String.eqb k k''); simpl; intros [<-|H]; auto.
    destruct (IH H); auto.
Qed.

Lemma counter_add_nodup (k : string) (m : list (string * Z)) :
  NoDup (map fst m) -> NoDup (map fst (counter_add k m)).
Proof.
  induction m as [|[k'' n] m IH]; simpl; intros Hn.
  - repeat constructor. simpl. tauto.
  - inversion Hn as [|? ? Hnot Hn']; subst.
    destruct (String.eqb k k'') eqn:E; simpl; constructor; auto.
    intros Hin. apply counter_add_keys in Hin as [->|Hin]; [|contradiction].
    rewrite String.eqb_refl in E. discriminate.
Qed.

Lemma sector_fold_spec (k : string) (l : list RankedStock) (m : list (string * Z)) :
  NoDup (map fst m) ->
  NoDup (map fst (fold_left (fun m s => counter_add (sector (data s)) m) l m)) /\
  counter_get k (fold_left (fun m s => counter_add (sector (data s)) m) l m)
  = (counter_get k m + Z.of_nat (List.length (filter (fun s => String.eqb (sector (data s)) k) l)))%Z.
Proof.
  revert m; induction l as [|s l IH]; intros m Hn; simpl.
  - split; [exact Hn | lia].
  - destruct (IH (counter_add (sector (data s)) m) (counter_add_nodup _ _ Hn)) as [H1 H2].
    split; [exact H1|]. rewrite H2, counter_add_get.
    destruct (String.eqb (sector (data s)) k); cbn [List.length]; lia.
Qed.

(** The sector distribution has each sector once, and maps every sector
    to the number of ranked records of that sector ([0] when absent). *)
Theorem sector_distribution_counts (stocks : list RankedStock) (k : string) :
  let d := sector_distribution (calculate_analytics stocks) in
  NoDup (map fst d) /\
  counter_get k d = Z.of_nat (List.length (filter (fun s => String.eqb (sector (data s)) k) stocks)).
Proof.
  destruct stocks as [|s ss].
  - simpl. split; [constructor | reflexivity].
  - cbn zeta. change (sector_distribution (calculate_analytics (s :: ss)))
      with (_get_sector_distribution (s :: ss)).
    unfold _get_sector_distribution.
    destruct (sector_fold_spec k (s :: ss) [] (NoDup_nil _)) as [H1 H2].
    split; [exact H1|]. rewrite H2. reflexivity.
Qed.

Lemma in_firstn_in {A : Type} (n : nat) (a : A) (l : list A) : In a (firstn n l) -> In a l.
Proof.
  intros H. rewrite <- (firstn_skipn n l). apply in_or_app. now left.
Qed.

Section Trending.

Variable stocks : list RankedStock.

(** Every group of the industry map holds records of the input whose
    industry is the group's key. *)
Definition groups_ok (m : list (string * list RankedStock)) : Prop :=
  forall k ss, In (k, ss) m -> forall x, In x ss -> industry (data x) = k /\ In x stocks.

Lemma group_append_ok (k : string) (s : RankedStock) (m : list (string * list RankedStock)) :
  groups_ok m -> industry (data s) = k -> In s stocks -> groups_ok (group_append k s m).
Proof.
  intros Hm Hk Hs. induction m as [|[k' ss] m IH]; simpl.
  - intros k1 ss1 [Heq|[]] x Hx. inversion Heq; subst. destruct Hx as [<-|[]]. auto.
  - assert (Hm' : groups_ok m) by (intros k1 ss1 H; apply Hm; now right).
    destruct (String.eqb k k') eqn:E.
    + apply String.eqb_eq in E; subst k'.
      intros k1 ss1 [Heq|Hin] x Hx.
      * inversion Heq; subst k1 ss1. apply in_app_or in Hx as [Hx|[<-|[]]]; [|auto].
        apply (Hm k ss); [now left | exact Hx].
      * now apply (Hm k1 ss1); [right|].
    + intros k1 ss1 [Heq|Hin] x Hx.
      * inversion Heq; subst. now apply (Hm k1 ss1); [left|].
      * now apply (IH Hm' k1 ss1).
Qed.

Lemma group_fold_ok (l : list RankedStock) (m : list (string * list RankedStock)) :
  groups_ok m -> (forall x, In x l -> In x stocks) ->
  groups_ok (fold_left (fun m stock => group_append (industry (data stock)) stock m) l m).
Proof.
  revert m; induction l as [|s l IH]; intros m Hm Hl; simpl; [exact Hm|].
  apply IH; [|intros x Hx; apply Hl; now right].
  apply group_append_ok; [exact Hm | reflexivity | apply Hl; now left].
Qed.

End Trending.

Lemma min_by_rank_in (x : RankedStock) (xs : list RankedStock) :
  In (min_by_rank x xs) (x :: xs).
Proof.
  unfold min_by_rank. revert x.
  induction xs as [|y xs IH]; intros x; simpl; [now left|].
  destruct (rank y <? rank x)%Z.
  - destruct (IH y) as [<-|H]; [right; now left | right; now right].
  - destruct (IH x) as [<-|H]; [now left | right; now right].
Qed.

(** The trending industries are listed by non-increasing average score;
    each has at least two ranked records, and its [top_stock] symbol and
    [sector] are those of a record of the input in that industry. *)
Theorem trending_industries_spec (stocks : list RankedStock) :
  let t := trending_industries (calculate_analytics stocks) in
  StronglySorted (fun a b => is_avg_score b <= is_avg_score a) t /\
  forall st, In st t ->
    (2 <= is_count st)%Z /\
    exists s, In s stocks /\ industry (data s) = is_name st /\
              symbol (data s) = is_top_stock st /\ sector (data s) = is_sector st.
Proof.
  cbn zeta.
  assert (Ht : trending_industries (calculate_analytics stocks) = _get_trending_industries stocks 5)
    by (destruct stocks; reflexivity).
  rewrite Ht. unfold _get_trending_industries.
  set (groups := fold_left _ stocks []).
  assert (Hg : groups_ok stocks groups).
  { apply group_fold_ok; [intros k ss' []|tauto]. }
  set (stats := flat_map _ groups).
  destruct (sort_desc_prefix is_avg_score stats 5) as [_ [Hsorted _]].
  split; [exact Hsorted|].
  intros st Hin. apply in_firstn_in in Hin.
  apply (Permutation_in _ (sort_desc_perm _ _)) in Hin.
  apply in_flat_map in Hin as [[name ind] [Hgi Hst']].
  destruct ind as [|first others]; [destruct Hst'|].
  destruct (List.length (first :: others) <? 2)%nat eqn:Hlen; [destruct Hst'|].
  destruct Hst' as [<-|[]]. simpl is_count. split.
  - apply Nat.ltb_ge in Hlen. cbn [List.length] in Hlen |- *. lia.
  - exists (min_by_rank first others). simpl.
    destruct (Hg name (first :: others) Hgi _ (min_by_rank_in first others)) as [Hi Hs].
    auto.
Qed.
